(** * Mass estimation of wood logs ([main.py])

    A shallow embedding of [estimar_massa] and of the module-level script
    that calls it, followed by the properties of the estimator.

    Python's numbers are kept behind a small interface ([Numero]) so that
    the one definition of [estimar_massa] is read at two carriers: the real
    numbers, on which the closed-form model and its order properties are
    stated, and IEEE binary64 (Python's [float]), on which the scenarios are
    evaluated bit for bit.  The detection model, OpenCV's drawing calls and
    the formatting of numbers are external to [main.py]; they are abstract
    ([Externo]). *)

From Stdlib Require Import String ZArith List Reals Lra Lia Psatz.
From Stdlib Require Import Floats.PrimFloat Floats.SpecFloat Floats.FloatOps.
Import ListNotations.

Set Implicit Arguments.

(** ** Numbers *)

(** The arithmetic [estimar_massa] performs.  A Python [int] meeting a
    [float] in [*] or [/] is first converted ([of_int]); [literal m k] is the
    decimal literal [m / 10^k] (so [0.002] is [literal 2 3]). *)
Class Numero (F : Type) : Type := {
  of_int : Z -> F;
  literal : Z -> nat -> F;
  fmul : F -> F -> F;
  fdiv : F -> F -> F;
  fpow : F -> nat -> F;
  math_pi : F
}.

Declare Scope py_scope.
Delimit Scope py_scope with py.
Infix "*" := fmul : py_scope.
Infix "/" := fdiv : py_scope.
Notation "x ** n" := (fpow x n) (at level 30, right associativity) : py_scope.

(** ** Data *)

(** One element of [resultados[0].boxes]: [xyxy] holds the four Python ints
    that [map(int, det.xyxy[0].cpu().numpy())] yields (line 28), [conf] is
    [det.conf.item()]. *)
Record Deteccao (F : Type) : Type := {
  xyxy : Z * Z * Z * Z;
  conf : F
}.

(** The dict appended to [previsoes] (lines 38-43). *)
Record Previsao (F : Type) : Type := {
  bbox : list Z;
  diametro_m : F;
  massa_kg : F;
  confianca : F
}.

(** The module-level constants (lines 9-11).  They are ordinary module
    globals: [estimar_massa] reads them when it runs, and the sidebar code
    assigns [DENSIDADE_MADEIRA]. *)
Record Globais (F : Type) : Type := {
  DENSIDADE_MADEIRA : F;
  COMPRIMENTO_TORA : F;
  FATOR_CONVERSAO : F
}.

Definition Cor : Type := (Z * Z * Z)%type.

(** What [main.py] calls and does not define: the detector behind
    [carregar_modelo()], the three OpenCV calls (font
    [FONT_HERSHEY_SIMPLEX], scale 0.6, thickness 1 and [LINE_AA] are fixed at
    every call site and are part of [getTextSize] and [putText] here;
    [getTextSize] gives the (width, height) pair, the baseline that comes
    with it is dropped at line 52), and the f-string conversion [{x:.Nf}]. *)
Class Externo (F Imagem : Type) : Type := {
  modelo : Imagem -> list (Deteccao F);
  rectangle : Imagem -> Z * Z -> Z * Z -> Cor -> Z -> Imagem;
  getTextSize : string -> Z * Z;
  putText : Imagem -> string -> Z * Z -> Cor -> Imagem;
  formata : nat -> F -> string
}.

(** ** The estimator *)

Section Programa.

Context {F Imagem : Type} {num : Numero F} {ext : Externo F Imagem}.

Local Open Scope py_scope.

(** The label drawn above a box (line 49). *)
Definition etiqueta (massa diametro confianca_det : F) : string :=
  (formata 1 massa ++ "kg | " ++ formata 2 diametro ++ "m | "
     ++ formata 2 confianca_det)%string.

(** The body of the [for det in resultados[0].boxes] loop (lines 27-75),
    threading the two objects it mutates: the annotated copy and the list
    [previsoes]. *)
Definition laco (g : Globais F) (estado : Imagem * list (Previsao F))
    (det : Deteccao F) : Imagem * list (Previsao F) :=
  let '(imagem_anotada, previsoes) := estado in
  let '(x1, y1, x2, y2) := xyxy det in
  let largura_px := (x2 - x1)%Z in
  let diametro := of_int largura_px * FATOR_CONVERSAO g in
  let raio := diametro / of_int 2 in
  let volume := math_pi * (raio ** 2) * COMPRIMENTO_TORA g in
  let massa := DENSIDADE_MADEIRA g * volume in
  let previsoes :=
    previsoes ++ [ {| bbox := [x1; y1; x2; y2];
                      diametro_m := diametro;
                      massa_kg := massa;
                      confianca := conf det |} ] in
  let imagem_anotada :=
    rectangle imagem_anotada (x1, y1) (x2, y2) (0, 255, 0)%Z 2%Z in
  let texto := etiqueta massa diametro (conf det) in
  let '(largura_texto, altura_texto) := getTextSize texto in
  let imagem_anotada :=
    rectangle imagem_anotada (x1, y1 - altura_texto - 10)%Z
      (x1 + largura_texto, y1)%Z (0, 255, 0)%Z (-1)%Z in
  let imagem_anotada :=
    putText imagem_anotada texto (x1, y1 - 5)%Z (0, 0, 0)%Z in
  (imagem_anotada, previsoes).

(** [estimar_massa(imagem)] (lines 18-77).  [imagem.copy()] is a fresh array
    with the pixels of [imagem]: as a value it is [imagem], and the drawing
    calls act on it, never on the argument. *)
Definition estimar_massa (g : Globais F) (imagem : Imagem)
    : Imagem * list (Previsao F) :=
  let resultados := modelo imagem in
  let imagem_anotada := imagem in
  let previsoes := [] in
  fold_left (laco g) resultados (imagem_anotada, previsoes).

(** ** The script around it *)

(** The three entries of the sidebar's [st.selectbox] (lines 147-150). *)
Inductive TipoMadeira : Type :=
| Pinho          (* "Pinho (500 kg/m3)" *)
| Carvalho       (* "Carvalho (700 kg/m3)" *)
| Personalizado. (* "Personalizado" *)

(** What the widgets hand to one run of the script: the decoded upload
    ([np.array(Image.open(arquivo))], or nothing), the selectbox entry and the
    value of the [st.number_input] shown for [Personalizado]. *)
Record Widgets : Type := {
  arquivo : option Imagem;
  tipo_madeira : TipoMadeira;
  densidade_personalizada : Z
}.

(** [st.number_input(..., min_value=100, max_value=1000)]. *)
Definition number_input_ok (w : Widgets) : Prop :=
  (100 <= densidade_personalizada w <= 1000)%Z.

(** Assignment to one global, the others untouched. *)
Definition com_densidade (d : F) (g : Globais F) : Globais F :=
  {| DENSIDADE_MADEIRA := d;
     COMPRIMENTO_TORA := COMPRIMENTO_TORA g;
     FATOR_CONVERSAO := FATOR_CONVERSAO g |}.


(** Lines 9-11. *)
Definition constantes : Globais F :=
  {| DENSIDADE_MADEIRA := of_int 600;
     COMPRIMENTO_TORA := literal 20 1;
     FATOR_CONVERSAO := literal 2 3 |}.

(** Lines 152-161: the assignment to [DENSIDADE_MADEIRA] in the sidebar
    ([500 if "Pinho" in tipo_madeira else 700] on the two preset entries). *)
Definition barra_lateral (w : Widgets) (g : Globais F) : Globais F :=
  match tipo_madeira w with
  | Personalizado => com_densidade (of_int (densidade_personalizada w)) g
  | Pinho => com_densidade (of_int 500) g
  | Carvalho => com_densidade (of_int 700) g
  end.

(** One run of the module, top to bottom, as Streamlit performs it on every
    interaction: the constants are assigned (lines 9-11), an uploaded image
    is processed (lines 88-98), and only then does the sidebar block run
    (lines 130-161).  The result is what [estimar_massa] returned, if it was
    called, and the globals the run ends with. *)
Definition script (w : Widgets)
    : option (Imagem * list (Previsao F)) * Globais F :=
  let g := constantes in
  let resultado :=
    match arquivo w with
    | Some imagem => Some (estimar_massa g imagem)
    | None => None
    end in
  let g := barra_lateral w g in
  (resultado, g).

(** ** Reading the result *)

(** The measurement as a function of one detection and the globals. *)
Definition medicao (g : Globais F) (det : Deteccao F) : Previsao F :=
  let '(x1, y1, x2, y2) := xyxy det in
  let diametro := of_int (x2 - x1) * FATOR_CONVERSAO g in
  {| bbox := [x1; y1; x2; y2];
     diametro_m := diametro;
     massa_kg :=
       DENSIDADE_MADEIRA g
       * (math_pi * ((diametro / of_int 2) ** 2) * COMPRIMENTO_TORA g);
     confianca := conf det |}.

(** [emite g imagem det p]: running [estimar_massa] on [imagem], [p] is
    the record appended for the detection [det] (same position in
    [previsoes] as [det] has in the detector's output). *)
Definition emite (g : Globais F) (imagem : Imagem) (det : Deteccao F)
    (p : Previsao F) : Prop :=
  exists i : nat,
    nth_error (modelo imagem) i = Some det /\
    nth_error (snd (estimar_massa g imagem)) i = Some p.

Definition largura_px (det : Deteccao F) : Z :=
  let '(x1, _, x2, _) := xyxy det in (x2 - x1)%Z.

End Programa.

Arguments Widgets : clear implicits.

(** ** The two carriers *)

(** Exact arithmetic: the closed-form model. *)
#[export] Instance Numero_R : Numero R := {|
  of_int := IZR;
  literal := fun m k => (IZR m / 10 ^ k)%R;
  fmul := Rmult;
  fdiv := Rdiv;
  fpow := pow;
  math_pi := PI
|}.

(** Python's [float(n)] for an [int]: round to nearest, ties to even. *)
Definition float_of_int (n : Z) : float :=
  SF2Prim (binary_normalize prec emax n 0 false).

(** IEEE binary64, Python's [float].  [*] and [/] are correctly rounded;
    a decimal literal [m / 10^k] with [m] below 2^53 and [k] at most 22 is
    the correctly rounded quotient of two exactly representable integers;
    [math.pi] is the double nearest to pi; [x ** n] is taken as repeated
    multiplication, which for [n = 2] is the correctly rounded square.
    (Where Python raises [OverflowError] on an [int] beyond the range of
    [float], [float_of_int] gives an infinity; box coordinates, read from
    32-bit floats, are far below it.) *)
#[export] Instance Numero_binary64 : Numero float := {|
  of_int := float_of_int;
  literal := fun m k =>
    PrimFloat.div (float_of_int m) (float_of_int (10 ^ Z.of_nat k));
  fmul := PrimFloat.mul;
  fdiv := PrimFloat.div;
  fpow := fun x n =>
    Nat.iter n (fun acc => PrimFloat.mul acc x) (float_of_int 1);
  math_pi := 0x1.921fb54442d18p+1%float
|}.

(** ** A concrete stand-in for the externals

    Used to run the estimator on explicit inputs: an image is the list of
    boxes the detector reports for it together with the drawing calls made on
    it so far. *)
Module Bancada.

Inductive Traco : Type :=
| Retangulo (pt1 pt2 : Z * Z) (cor : Cor) (espessura : Z)
| Texto (texto : string) (org : Z * Z) (cor : Cor).

Record Tela (F : Type) : Type := {
  caixas : list (Deteccao F);
  tracos : list Traco
}.

Definition desenha {F : Type} (t : Tela F) (tr : Traco) : Tela F :=
  {| caixas := caixas t; tracos := tracos t ++ [tr] |}.

#[export] Instance externo (F : Type) : Externo F (Tela F) := {|
  modelo := @caixas F;
  rectangle := fun t pt1 pt2 cor e => desenha t (Retangulo pt1 pt2 cor e);
  getTextSize := fun s => (11 * Z.of_nat (String.length s), 13)%Z;
  putText := fun t s org cor => desenha t (Texto s org cor);
  formata := fun _ _ => "#"%string
|}.

Definition foto {F : Type} (dets : list (Deteccao F)) : Tela F :=
  {| caixas := dets; tracos := [] |}.

Definition caixa {F : Type} {num : Numero F} (x1 y1 x2 y2 : Z) : Deteccao F :=
  {| xyxy := (x1, y1, x2, y2); conf := literal 9 1 |}.

(** The box of the scenarios, a zero-width box, a reversed box and a wider
    box. *)
Definition tora {F : Type} {num : Numero F} : Deteccao F :=
  caixa 100 100 200 150.
Definition fina {F : Type} {num : Numero F} : Deteccao F :=
  caixa 100 100 100 150.
Definition invertida {F : Type} {num : Numero F} : Deteccao F :=
  caixa 200 100 100 150.
Definition larga {F : Type} {num : Numero F} : Deteccao F :=
  caixa 100 100 250 150.

End Bancada.

(** ** The results column and the summary (lines 107-127) *)

(** Addition, which only the summary needs.  It is read over the reals
    only: how CPython rounds a [sum] of floats depends on the interpreter
    (a compensated sum since 3.12), its exact value does not. *)
Class Adicao (F : Type) : Type := {
  fadd : F -> F -> F
}.

Infix "+" := fadd : py_scope.

#[export] Instance Adicao_R : Adicao R := {| fadd := Rplus |}.

(** [enumerate(xs, start)]. *)
Fixpoint enumerate (A : Type) (start : Z) (xs : list A) : list (Z * A) :=
  match xs with
  | [] => []
  | x :: xs => (start, x) :: enumerate (start + 1) xs
  end.

(** One [st.markdown] block of the loop at lines 109-117, as the values put
    into its template: the number after "Tora" and the three formatted
    quantities. *)
Record Bloco : Type := {
  numero : Z;
  massa_txt : string;
  diametro_txt : string;
  confianca_txt : string
}.

(** The two numbers of the [st.success] box (lines 121-122). *)
Record Resumo (F : Type) : Type := {
  massa_total : F;
  diametro_medio : F
}.

(** The right-hand column (lines 107-127): the count in the subheader, the
    blocks, and the summary box when there is one. *)
Record Coluna (F : Type) : Type := {
  toras_detectadas : Z;
  blocos : list Bloco;
  sucesso : option (Resumo F)
}.

Section Painel.

Context {F Imagem : Type} {num : Numero F} {adi : Adicao F}
        {ext : Externo F Imagem}.

Local Open Scope py_scope.

(** [sum(xs)]: from the int 0, adding from the left. *)
Definition py_sum (xs : list F) : F :=
  fold_left fadd xs (of_int 0).

Definition bloco (i : Z) (prev : Previsao F) : Bloco :=
  {| numero := i;
     massa_txt := formata 1 (massa_kg prev);
     diametro_txt := formata 2 (diametro_m prev);
     confianca_txt := formata 2 (confianca prev) |}.

(** Lines 120-122: [if previsoes:] guards the two statistics. *)
Definition resumo (previsoes : list (Previsao F)) : option (Resumo F) :=
  match previsoes with
  | [] => None
  | _ :: _ =>
      let massa_total := py_sum (map (@massa_kg F) previsoes) in
      let diametro_medio :=
        py_sum (map (@diametro_m F) previsoes)
        / of_int (Z.of_nat (length previsoes)) in
      Some {| massa_total := massa_total; diametro_medio := diametro_medio |}
  end.

Definition coluna_resultados (previsoes : list (Previsao F)) : Coluna F :=
  {| toras_detectadas := Z.of_nat (length previsoes);
     blocos := map (fun ip => bloco (fst ip) (snd ip)) (enumerate 1 previsoes);
     sucesso := resumo previsoes |}.

(** What a run shows under "Resultados da Analise" (lines 100-127): the
    annotated image and the column, when a file was uploaded. *)
Definition pagina (w : Widgets Imagem) : option (Imagem * Coluna F) :=
  match fst (script w) with
  | Some (imagem_anotada, previsoes) =>
      Some (imagem_anotada, coluna_resultados previsoes)
  | None => None
  end.

End Painel.

(** ** Recording the drawing calls

    The stand-in of [Bancada] with the text measure and the number format
    left open: every OpenCV call is appended to the log of the image. *)
Definition registrador (F : Type) (medida : string -> Z * Z)
    (fmt : nat -> F -> string) : Externo F (Bancada.Tela F) := {|
  modelo := @Bancada.caixas F;
  rectangle := fun t pt1 pt2 cor e =>
    Bancada.desenha t (Bancada.Retangulo pt1 pt2 cor e);
  getTextSize := medida;
  putText := fun t s org cor => Bancada.desenha t (Bancada.Texto s org cor);
  formata := fmt
|}.

(** The texts written on an image, in the order of the calls. *)
Fixpoint textos (ts : list Bancada.Traco) : list string :=
  match ts with
  | [] => []
  | Bancada.Texto s _ _ :: ts => s :: textos ts
  | Bancada.Retangulo _ _ _ _ :: ts => textos ts
  end.

(** The calls lines 46-75 make for one detection: the outline of the box,
    the filled background of the label and the label itself. *)
Definition tracos_de {F : Type} {num : Numero F} (medida : string -> Z * Z)
    (fmt : nat -> F -> string) (g : Globais F) (det : Deteccao F)
    : list Bancada.Traco :=
  let '(x1, y1, x2, y2) := xyxy det in
  let p := medicao g det in
  let texto :=
    (fmt 1 (massa_kg p) ++ "kg | " ++ fmt 2 (diametro_m p) ++ "m | "
       ++ fmt 2 (conf det))%string in
  let '(largura_texto, altura_texto) := medida texto in
  [ Bancada.Retangulo (x1, y1) (x2, y2) (0, 255, 0)%Z 2%Z;
    Bancada.Retangulo (x1, y1 - altura_texto - 10)%Z
      (x1 + largura_texto, y1)%Z (0, 255, 0)%Z (-1)%Z;
    Bancada.Texto texto (x1, y1 - 5)%Z (0, 0, 0)%Z ].

Unset Implicit Arguments.

(** ** What the loop computes, at any carrier *)

Section Leis.

Context {F Imagem : Type} {num : Numero F} {ext : Externo F Imagem}.

(** One turn of the loop appends exactly the record [medicao] describes;
    the drawing calls do not feed back into the list. *)
Lemma laco_snd (g : Globais F) (estado : Imagem * list (Previsao F))
    (det : Deteccao F) :
  snd (laco g estado det) = snd estado ++ [medicao g det].
Proof.
  destruct estado as [imagem_anotada previsoes].
  unfold laco, medicao.
  destruct (xyxy det) as [[[x1 y1] x2] y2].
  destruct (getTextSize _) as [largura_texto altura_texto].
  reflexivity.
Qed.

Lemma fold_laco_snd (g : Globais F) (dets : list (Deteccao F)) :
  forall estado,
    snd (fold_left (laco g) dets estado)
    = snd estado ++ map (medicao g) dets.
Proof.
  induction dets as [|det dets IH]; intros estado; simpl.
  - now rewrite app_nil_r.
  - rewrite IH, laco_snd, <- app_assoc. reflexivity.
Qed.

Lemma estimar_massa_previsoes (g : Globais F) (imagem : Imagem) :
  snd (estimar_massa g imagem) = map (medicao g) (modelo imagem).
Proof.
  unfold estimar_massa. now rewrite fold_laco_snd.
Qed.

Lemma emite_medicao (g : Globais F) (imagem : Imagem) (det : Deteccao F)
    (p : Previsao F) :
  emite g imagem det p -> p = medicao g det.
Proof.
  intros [i [Hdet Hp]].
  rewrite estimar_massa_previsoes, nth_error_map, Hdet in Hp.
  simpl in Hp. congruence.
Qed.

Lemma emite_existe (g : Globais F) (imagem : Imagem) (det : Deteccao F) :
  In det (modelo imagem) -> emite g imagem det (medicao g det).
Proof.
  intros Hin. apply In_nth_error in Hin as [i Hi].
  exists i. split; [exact Hi|].
  now rewrite estimar_massa_previsoes, nth_error_map, Hi.
Qed.

Lemma emite_In (g : Globais F) (imagem : Imagem) (det : Deteccao F)
    (p : Previsao F) :
  emite g imagem det p ->
  In det (modelo imagem) /\ In p (snd (estimar_massa g imagem)).
Proof.
  intros [i [Hdet Hp]]. split; eapply nth_error_In; eassumption.
Qed.

End Leis.

(** ** Shape of the result, at any carrier *)

Section Forma.

Context {F Imagem : Type} {num : Numero F} {ext : Externo F Imagem}.

(** C5.  [estimar_massa] returns as many records as the detector reported
    boxes, in the same order, and each record is [medicao] of its detection
    and the globals: so two detections with the same box, found in any two
    images, get the same diameter and the same mass. *)
Theorem uma_previsao_por_deteccao (g : Globais F) (imagem : Imagem) :
  length (snd (estimar_massa g imagem)) = length (modelo imagem) /\
  snd (estimar_massa g imagem) = map (medicao g) (modelo imagem) /\
  (forall (imagem' : Imagem) (det : Deteccao F) (p p' : Previsao F),
      emite g imagem det p -> emite g imagem' det p' ->
      diametro_m p = diametro_m p' /\ massa_kg p = massa_kg p').
Proof.
  split; [|split].
  - rewrite estimar_massa_previsoes. apply length_map.
  - apply estimar_massa_previsoes.
  - intros imagem' det p p' Hp Hp'.
    apply emite_medicao in Hp, Hp'. subst p p'. split; reflexivity.
Qed.

(** C9.  With no detection the loop body never runs: the list of records is
    empty and the returned image is the copy of the input, untouched by any
    drawing call. *)
Theorem sem_deteccoes (g : Globais F) (imagem : Imagem) :
  modelo imagem = [] -> estimar_massa g imagem = (imagem, []).
Proof.
  intros Hvazio. unfold estimar_massa. rewrite Hvazio. reflexivity.
Qed.

(** C3, as the code has it.  A box whose width [x2 - x1] is zero or negative
    is not skipped: the loop has no guard, and the detection gets its record
    like any other, with the box and the diameter
    [width_px * FATOR_CONVERSAO]. *)
Theorem degenerada_emitida (g : Globais F) (imagem : Imagem)
    (det : Deteccao F) (x1 y1 x2 y2 : Z) :
  In det (modelo imagem) ->
  xyxy det = (x1, y1, x2, y2) ->
  (x2 - x1 <= 0)%Z ->
  exists p : Previsao F,
    emite g imagem det p /\
    In p (snd (estimar_massa g imagem)) /\
    bbox p = [x1; y1; x2; y2] /\
    diametro_m p = (of_int (x2 - x1) * FATOR_CONVERSAO g)%py.
Proof.
  intros Hin Hbox _.
  pose proof (emite_existe g imagem det Hin) as Hemite.
  exists (medicao g det). split; [exact Hemite|]. split.
  - apply (emite_In g imagem det _ Hemite).
  - unfold medicao. rewrite Hbox. split; reflexivity.
Qed.

End Forma.

(** ** The closed-form model, over the reals *)

Lemma PI_faixa : (3.14159 < PI < 3.1416)%R.
Proof.
  pose proof (PI_2_3_7_ineq 3) as [Hinf Hsup].
  unfold sum_f_R0, tg_alt, PI_2_3_7_tg, Ratan_seq in Hinf, Hsup.
  simpl in Hinf, Hsup.
  split; lra.
Qed.

Section Reais.

Context {Imagem : Type} {ext : Externo R Imagem}.

Local Open Scope R_scope.

(** Replace an emitted record by its closed form, for the box [Hbox]. *)
Ltac abre Hemite Hbox :=
  apply emite_medicao in Hemite; subst;
  unfold medicao; rewrite Hbox; cbn.

(** The mass of a record, as a polynomial in width, factor, length and
    density. *)
Lemma massa_medicao (g : Globais R) (det : Deteccao R) :
  massa_kg (medicao g det)
  = DENSIDADE_MADEIRA g * COMPRIMENTO_TORA g * (PI / 4)
    * (IZR (largura_px det) * FATOR_CONVERSAO g) ^ 2.
Proof.
  unfold medicao, largura_px.
  destruct (xyxy det) as [[[x1 y1] x2] y2]. cbn. field.
Qed.

Lemma diametro_medicao (g : Globais R) (det : Deteccao R) :
  diametro_m (medicao g det) = IZR (largura_px det) * FATOR_CONVERSAO g.
Proof.
  unfold medicao, largura_px.
  destruct (xyxy det) as [[[x1 y1] x2] y2]. reflexivity.
Qed.

(** C1.  The record emitted for a detection follows the closed-form model:
    width_px = x2 - x1, diameter_m = width_px * factor, radius_m =
    diameter_m / 2, volume_m3 = pi * radius_m^2 * 2 for the log length 2.0,
    mass_kg = density * volume_m3. *)
Theorem modelo_fechado (g : Globais R) (imagem : Imagem) (det : Deteccao R)
    (p : Previsao R) (x1 y1 x2 y2 : Z) :
  COMPRIMENTO_TORA g = 2 ->
  xyxy det = (x1, y1, x2, y2) ->
  emite g imagem det p ->
  let width_px := IZR (x2 - x1) in
  let diameter_m := width_px * FATOR_CONVERSAO g in
  let radius_m := diameter_m / 2 in
  let volume_m3 := PI * radius_m ^ 2 * 2 in
  let mass_kg := DENSIDADE_MADEIRA g * volume_m3 in
  diametro_m p = diameter_m /\ massa_kg p = mass_kg.
Proof.
  intros Hcomp Hbox Hemite. abre Hemite Hbox.
  rewrite Hcomp. split; reflexivity.
Qed.

(** C2.  Scenario 1: the box (100, 100, 200, 150) with factor 0.002,
    density 600 and length 2.0 gives diameter 0.2, radius 0.1, volume
    pi * 0.01 * 2 (between 0.06283 and 0.06284) and a mass within 0.001 of
    37.7. *)
Theorem cenario_1 (g : Globais R) (imagem : Imagem) (det : Deteccao R)
    (p : Previsao R) :
  FATOR_CONVERSAO g = 0.002 ->
  DENSIDADE_MADEIRA g = 600 ->
  COMPRIMENTO_TORA g = 2 ->
  xyxy det = (100, 100, 200, 150)%Z ->
  emite g imagem det p ->
  let raio := diametro_m p / 2 in
  let volume := PI * raio ^ 2 * 2 in
  diametro_m p = 0.2 /\ raio = 0.1 /\
  volume = PI * 0.01 * 2 /\ 0.06283 < volume < 0.06284 /\
  massa_kg p = 600 * volume /\ 37.699 < massa_kg p < 37.7.
Proof.
  intros Hfator Hdens Hcomp Hbox Hemite. abre Hemite Hbox.
  rewrite Hfator, Hdens, Hcomp.
  pose proof PI_faixa as [Hinf Hsup].
  repeat split; lra.
Qed.

(** C6.  A box of width zero gets mass zero, hence no positive mass. *)
Theorem largura_zero_massa_zero (g : Globais R) (imagem : Imagem)
    (det : Deteccao R) (p : Previsao R) (x1 y1 x2 y2 : Z) :
  xyxy det = (x1, y1, x2, y2) ->
  x1 = x2 ->
  emite g imagem det p ->
  massa_kg p = 0 /\ ~ massa_kg p > 0.
Proof.
  intros Hbox Hx Hemite. apply emite_medicao in Hemite. subst p x2.
  assert (Hmassa : massa_kg (medicao g det) = 0).
  { rewrite massa_medicao. unfold largura_px.
    rewrite Hbox, Z.sub_diag. simpl. ring. }
  rewrite Hmassa. split; [reflexivity | lra].
Qed.




(** C10.  A reversed box (x2 < x1) still gets its record: the diameter is
    negative and, the radius being squared, the mass is strictly positive;
    so no record ever carries a negative mass. *)
Theorem largura_negativa (g : Globais R) (imagem : Imagem) :
  0 < FATOR_CONVERSAO g ->
  0 < COMPRIMENTO_TORA g ->
  0 < DENSIDADE_MADEIRA g ->
  (forall det : Deteccao R,
      In det (modelo imagem) -> (largura_px det < 0)%Z ->
      exists p : Previsao R,
        emite g imagem det p /\ diametro_m p < 0 /\ 0 < massa_kg p) /\
  (forall p : Previsao R,
      In p (snd (estimar_massa g imagem)) -> 0 <= massa_kg p).
Proof.
  intros Hfator Hcomp Hdens.
  pose proof PI_RGT_0 as Hpi.
  split.
  - intros det Hin Hneg.
    exists (medicao g det). split; [now apply emite_existe|].
    rewrite diametro_medicao, massa_medicao.
    apply IZR_lt in Hneg.
    assert (Hd : IZR (largura_px det) * FATOR_CONVERSAO g < 0) by nra.
    split; [exact Hd|].
    apply Rmult_lt_0_compat.
    + apply Rmult_lt_0_compat; [apply Rmult_lt_0_compat; assumption | lra].
    + simpl. nra.
  - intros p Hin.
    rewrite estimar_massa_previsoes in Hin.
    apply in_map_iff in Hin as [det [Hp _]]. subst p.
    rewrite massa_medicao.
    apply Rmult_le_pos.
    + apply Rmult_le_pos; [apply Rmult_le_pos|]; lra.
    + apply pow2_ge_0.
Qed.

End Reais.

(** ** The run of the script *)

Section Execucao.

Context {F Imagem : Type} {num : Numero F} {ext : Externo F Imagem}.

(** Whatever the sidebar holds, the estimation of a run reads the globals
    as lines 9-11 left them. *)
Lemma script_estima_com_constantes (w : Widgets Imagem) :
  fst (script w) = option_map (estimar_massa constantes) (arquivo w).
Proof.
  unfold script. destruct (arquivo w); reflexivity.
Qed.

Lemma script_ignora_selecao (w w' : Widgets Imagem) :
  arquivo w = arquivo w' -> fst (script w) = fst (script w').
Proof.
  intros Hmesmo. rewrite !script_estima_com_constantes, Hmesmo. reflexivity.
Qed.

(** The selection only shows in the globals the run ends with. *)
Lemma script_densidade_final (w : Widgets Imagem) :
  DENSIDADE_MADEIRA (snd (script w))
  = match tipo_madeira w with
    | Pinho => of_int 500
    | Carvalho => of_int 700
    | Personalizado => of_int (densidade_personalizada w)
    end.
Proof.
  unfold script, barra_lateral. destruct (tipo_madeira w); reflexivity.
Qed.

(** No statement of the module assigns the other two globals. *)
Lemma script_preserva (w : Widgets Imagem) :
  COMPRIMENTO_TORA (snd (script w)) = literal 20 1 /\
  FATOR_CONVERSAO (snd (script w)) = literal 2 3.
Proof.
  unfold script, barra_lateral. destruct (tipo_madeira w); split; reflexivity.
Qed.

End Execucao.

(** ** Explicit inputs *)

Import Bancada.

Local Open Scope R_scope.

(** C4, at an upload showing the box of Scenario 1 with "Pinho (500 kg/m3)"
    selected.  The run ends with [DENSIDADE_MADEIRA] = 500, but the record
    was computed before the sidebar ran, with 600: its mass is
    600 * (pi * 0.1^2 * 2), not 500 * (pi * 0.1^2 * 2). *)
Theorem densidade_escolhida_nao_usada :
  exists (imagem_anotada : Tela R) (p : Previsao R),
    script {| arquivo := Some (foto [tora]);
              tipo_madeira := Pinho;
              densidade_personalizada := 600 |}
    = (Some (imagem_anotada, [p]), com_densidade 500 constantes) /\
    massa_kg p = 600 * (PI * 0.1 ^ 2 * 2) /\
    massa_kg p <> 500 * (PI * 0.1 ^ 2 * 2).
Proof.
  eexists. eexists. split; [reflexivity|].
  cbn. pose proof PI_RGT_0 as Hpi. split; lra.
Qed.

(** C3, as stated, fails.  On an upload whose only box has width zero, the
    box is not skipped: [previsoes] holds one record, the one for that box. *)
Lemma degenerada_nao_ignorada :
  (largura_px (F := R) fina <= 0)%Z /\
  In fina (modelo (foto (F := R) [fina])) /\
  exists p : Previsao R,
    snd (estimar_massa constantes (foto [fina])) = [p] /\
    emite constantes (foto [fina]) fina p /\
    bbox p = [100; 100; 100; 150]%Z /\
    massa_kg p = 0.
Proof.
  split; [cbn; lia|]. split; [left; reflexivity|].
  eexists. split; [reflexivity|]. split.
  - exists 0%nat. split; reflexivity.
  - split; [reflexivity|]. cbn. lra.
Qed.

(** X13.  With the custom value inside the bounds of the number input, the
    density a run ends with lies in [100, 1000]: it is one of the presets
    or the custom value. *)
Lemma densidade_final_faixa {Imagem : Type} {ext : Externo R Imagem}
    (w : Widgets Imagem) :
  number_input_ok w ->
  100 <= DENSIDADE_MADEIRA (snd (script (F := R) w)) <= 1000.
Proof.
  intros [Hmin Hmax]. rewrite script_densidade_final.
  destruct (tipo_madeira w); cbn; try lra.
  apply IZR_le in Hmin, Hmax. lra.
Qed.

(** On the stand-in, every detection leaves three drawing calls on the
    copy: the box, the label background and the label text. *)
Lemma bancada_tracos {F : Type} {num : Numero F} (g : Globais F)
    (dets : list (Deteccao F)) :
  forall estado : Tela F * list (Previsao F),
    length (tracos (fst (fold_left (laco g) dets estado)))
    = (length (tracos (fst estado)) + 3 * length dets)%nat.
Proof.
  induction dets as [|det dets IH]; intros [tela previsoes].
  - simpl. lia.
  - cbn [fold_left]. rewrite IH.
    unfold laco. destruct (xyxy det) as [[[x1 y1] x2] y2].
    cbn. rewrite !length_app. cbn. lia.
Qed.

Lemma bancada_tracos_foto {F : Type} {num : Numero F} (g : Globais F)
    (dets : list (Deteccao F)) :
  length (tracos (fst (estimar_massa g (foto dets)))) = (3 * length dets)%nat.
Proof.
  unfold estimar_massa. rewrite bancada_tracos. reflexivity.
Qed.

(** The module constants are positive, and the length is 2. *)
Lemma constantes_positivas :
  0 < FATOR_CONVERSAO (F := R) constantes /\
  0 < COMPRIMENTO_TORA (F := R) constantes /\
  0 < DENSIDADE_MADEIRA (F := R) constantes.
Proof. cbn. repeat split; lra. Qed.

Lemma constantes_valores :
  FATOR_CONVERSAO (F := R) constantes = 0.002 /\
  DENSIDADE_MADEIRA (F := R) constantes = 600 /\
  COMPRIMENTO_TORA (F := R) constantes = 2.
Proof. cbn. repeat split; lra. Qed.

Lemma emite_unica {F : Type} {num : Numero F} (g : Globais F)
    (det : Deteccao F) :
  emite g (foto [det]) det (medicao g det).
Proof. apply emite_existe. left. reflexivity. Qed.

(** *** The theorems above, applied to the boxes of the stand-in *)

Lemma modelo_fechado_witness :
  let p := medicao (F := R) constantes tora in
  diametro_m p = IZR (200 - 100) * FATOR_CONVERSAO (F := R) constantes /\
  massa_kg p
  = DENSIDADE_MADEIRA (F := R) constantes
    * (PI * (IZR (200 - 100) * FATOR_CONVERSAO (F := R) constantes / 2) ^ 2 * 2).
Proof.
  destruct constantes_valores as [_ [_ Hcomp]].
  exact (modelo_fechado constantes (foto [tora]) tora _ 100 100 200 150
           Hcomp eq_refl (emite_unica constantes tora)).
Defined.

Lemma cenario_1_witness :
  let p := medicao (F := R) constantes tora in
  diametro_m p = 0.2 /\ diametro_m p / 2 = 0.1 /\
  PI * (diametro_m p / 2) ^ 2 * 2 = PI * 0.01 * 2 /\
  0.06283 < PI * (diametro_m p / 2) ^ 2 * 2 < 0.06284 /\
  massa_kg p = 600 * (PI * (diametro_m p / 2) ^ 2 * 2) /\
  37.699 < massa_kg p < 37.7.
Proof.
  destruct constantes_valores as [Hfator [Hdens Hcomp]].
  exact (cenario_1 constantes (foto [tora]) tora _ Hfator Hdens Hcomp
           eq_refl (emite_unica constantes tora)).
Defined.

Lemma largura_zero_massa_zero_witness :
  massa_kg (medicao (F := R) constantes fina) = 0 /\
  ~ massa_kg (medicao (F := R) constantes fina) > 0.
Proof.
  exact (largura_zero_massa_zero constantes (foto [fina]) fina _
           100 100 100 150 eq_refl eq_refl (emite_unica constantes fina)).
Defined.



Lemma largura_negativa_witness :
  (exists p : Previsao R,
      emite constantes (foto [invertida; tora]) invertida p /\
      diametro_m p < 0 /\ 0 < massa_kg p) /\
  0 <= massa_kg (medicao (F := R) constantes invertida).
Proof.
  destruct constantes_positivas as [Hfator [Hcomp Hdens]].
  destruct (largura_negativa constantes (foto [invertida; tora])
              Hfator Hcomp Hdens) as [Hneg Hpos].
  split.
  - apply Hneg.
    + left. reflexivity.
    + cbn. lia.
  - apply Hpos. left. reflexivity.
Defined.

Lemma uma_previsao_por_deteccao_witness :
  length (snd (estimar_massa (F := R) constantes (foto [tora; fina; invertida])))
  = 3%nat.
Proof.
  exact (proj1 (uma_previsao_por_deteccao (F := R) constantes
                  (foto [tora; fina; invertida]))).
Defined.

Lemma sem_deteccoes_witness :
  estimar_massa (F := R) constantes (foto []) = (foto [], []).
Proof.
  exact (sem_deteccoes (F := R) constantes (foto []) eq_refl).
Defined.

Lemma degenerada_emitida_witness :
  exists p : Previsao R,
    emite constantes (foto [tora; invertida]) invertida p /\
    In p (snd (estimar_massa constantes (foto [tora; invertida]))) /\
    bbox p = [200; 100; 100; 150]%Z /\
    diametro_m p = IZR (100 - 200) * FATOR_CONVERSAO (F := R) constantes.
Proof.
  assert (Hlargura : (100 - 200 <= 0)%Z) by lia.
  exact (degenerada_emitida (F := R) constantes (foto [tora; invertida])
           invertida 200 100 100 150
           (or_intror (or_introl eq_refl)) eq_refl Hlargura).
Defined.

(** ** The same runs in binary64

    The values Python's [float] arithmetic produces on the boxes above,
    written in hexadecimal so that they are exact: 0.2 is
    [0x1.999999999999ap-3], 37.69911184307752 is [0x1.2d97c7f3321d2p+5],
    43.98229715025711 is [0x1.5fdbbe9bba776p+5]. *)

Example binary64_cenario_1 :
  map (fun p => (diametro_m p, massa_kg p))
      (snd (estimar_massa (F := float) constantes (foto [tora])))
  = [(0x1.999999999999ap-3, 0x1.2d97c7f3321d2p+5)%float].
Proof. vm_compute. reflexivity. Qed.

Example binary64_cenario_2 :
  map (fun p => (diametro_m p, massa_kg p))
      (snd (estimar_massa (F := float)
              (com_densidade (of_int 700) constantes) (foto [tora])))
  = [(0x1.999999999999ap-3, 0x1.5fdbbe9bba776p+5)%float].
Proof. vm_compute. reflexivity. Qed.

Example binary64_degeneradas :
  map (fun p => (diametro_m p, massa_kg p))
      (snd (estimar_massa (F := float) constantes (foto [fina; invertida])))
  = [(0, 0); (-0x1.999999999999ap-3, 0x1.2d97c7f3321d2p+5)]%float.
Proof. vm_compute. reflexivity. Qed.

Example binary64_script_pinho :
  let w := {| arquivo := Some (foto (F := float) [tora]);
              tipo_madeira := Pinho;
              densidade_personalizada := 600 |} in
  option_map (fun r => map (@massa_kg float) (snd r)) (fst (script w))
  = Some [0x1.2d97c7f3321d2p+5%float] /\
  DENSIDADE_MADEIRA (snd (script w)) = 500%float.
Proof. vm_compute. split; reflexivity. Qed.

(** The wider box and the denser wood weigh more in binary64 too:
    31.415926535897935 < 37.69911184307752 < 84.82300164692441. *)
Example binary64_crescente :
  let massa g det := massa_kg (medicao (F := float) g det) in
  PrimFloat.ltb (massa constantes tora) (massa constantes larga) = true /\
  PrimFloat.ltb (massa (com_densidade (of_int 500) constantes) tora)
                (massa constantes tora) = true /\
  massa (com_densidade (of_int 500) constantes) tora
  = 0x1.f6a7a2955385fp+4%float /\
  massa constantes larga = 0x1.534ac0f19860cp+6%float.
Proof. vm_compute. repeat split; reflexivity. Qed.

(** * Beyond the closed form: records, column, summary and drawing *)

(** ** What a record carries, at any carrier *)

Section Registros.

Context {F Imagem : Type} {num : Numero F} {adi : Adicao F}
        {ext : Externo F Imagem}.

(** X1.  The record of a detection carries its box, as the list
    [x1, y1, x2, y2], and its confidence, both unchanged. *)
Theorem previsao_leva_caixa_e_confianca (g : Globais F) (imagem : Imagem)
    (det : Deteccao F) (p : Previsao F) (x1 y1 x2 y2 : Z) :
  xyxy det = (x1, y1, x2, y2) ->
  emite g imagem det p ->
  bbox p = [x1; y1; x2; y2] /\ confianca p = conf det.
Proof.
  intros Hbox Hemite. apply emite_medicao in Hemite. subst p.
  unfold medicao. rewrite Hbox. split; reflexivity.
Qed.

(** X2.  Diameter and mass see a box only through its width: two detections
    of equal width get the same diameter and the same mass, whatever their
    position, their height and their confidence. *)
Theorem so_a_largura_conta (g : Globais F) (imagem1 imagem2 : Imagem)
    (det1 det2 : Deteccao F) (p1 p2 : Previsao F) :
  largura_px det1 = largura_px det2 ->
  emite g imagem1 det1 p1 ->
  emite g imagem2 det2 p2 ->
  diametro_m p1 = diametro_m p2 /\ massa_kg p1 = massa_kg p2.
Proof.
  intros Hlargura H1 H2. apply emite_medicao in H1, H2. subst p1 p2.
  unfold medicao, largura_px in *.
  destruct (xyxy det1) as [[[a1 b1] a2] b2].
  destruct (xyxy det2) as [[[c1 d1] c2] d2].
  cbn. rewrite Hlargura. split; reflexivity.
Qed.

Lemma previsoes_length (g : Globais F) (imagem : Imagem) :
  length (snd (estimar_massa g imagem)) = length (modelo imagem).
Proof.
  rewrite estimar_massa_previsoes. apply length_map.
Qed.

Lemma confianca_medicao (g : Globais F) (det : Deteccao F) :
  confianca (medicao g det) = conf det.
Proof.
  unfold medicao. destruct (xyxy det) as [[[x1 y1] x2] y2]. reflexivity.
Qed.

Lemma enumerate_length (A : Type) (xs : list A) :
  forall start : Z, length (enumerate start xs) = length xs.
Proof.
  induction xs as [|x xs IH]; intros start; simpl; [|rewrite IH]; reflexivity.
Qed.

Lemma enumerate_nth (A : Type) (xs : list A) :
  forall (start : Z) (k : nat) (x : A),
    nth_error xs k = Some x ->
    nth_error (enumerate start xs) k = Some ((start + Z.of_nat k)%Z, x).
Proof.
  induction xs as [|y xs IH]; intros start k x Hk.
  - destruct k; discriminate.
  - destruct k as [|k].
    + simpl in Hk. injection Hk as ->. simpl. now rewrite Z.add_0_r.
    + simpl in Hk. cbn [enumerate nth_error].
      rewrite (IH (start + 1)%Z k x Hk). do 2 f_equal. lia.
Qed.

(** X3.  The column lists the detections in the detector's order, numbered
    from 1: its count is the number of detections, and the detection at
    position [k] (from 0) is the block "Tora k+1", showing the formatted
    mass, diameter and confidence of that detection's record. *)
Theorem blocos_numerados (g : Globais F) (imagem : Imagem) :
  let coluna := coluna_resultados (snd (estimar_massa g imagem)) in
  toras_detectadas coluna = Z.of_nat (length (modelo imagem)) /\
  length (blocos coluna) = length (modelo imagem) /\
  (forall (k : nat) (det : Deteccao F),
      nth_error (modelo imagem) k = Some det ->
      nth_error (blocos coluna) k
      = Some {| numero := Z.of_nat k + 1;
                massa_txt := formata 1 (massa_kg (medicao g det));
                diametro_txt := formata 2 (diametro_m (medicao g det));
                confianca_txt := formata 2 (conf det) |}).
Proof.
  cbn zeta. unfold coluna_resultados. cbn [toras_detectadas blocos].
  rewrite estimar_massa_previsoes.
  split; [|split].
  - now rewrite length_map.
  - now rewrite length_map, enumerate_length, length_map.
  - intros k det Hk.
    rewrite nth_error_map.
    rewrite (enumerate_nth _ _ 1%Z k (medicao g det)).
    + replace (1 + Z.of_nat k)%Z with (Z.of_nat k + 1)%Z by lia.
      cbn [option_map fst snd]. unfold bloco. cbn [fst snd].
      rewrite confianca_medicao. reflexivity.
    + now rewrite nth_error_map, Hk.
Qed.

End Registros.

(** ** The summary, over the reals *)

Section ResumoReais.

Context {Imagem : Type} {ext : Externo R Imagem}.

Local Open Scope R_scope.

Lemma fold_left_Rplus (xs : list R) :
  forall a : R, fold_left Rplus xs a = a + fold_left Rplus xs 0.
Proof.
  induction xs as [|x xs IH]; intros a; simpl.
  - ring.
  - rewrite (IH (a + x)), (IH (0 + x)). ring.
Qed.

Lemma py_sum_cons (x : R) (xs : list R) :
  py_sum (x :: xs) = x + py_sum xs.
Proof.
  unfold py_sum. cbn. rewrite fold_left_Rplus. ring.
Qed.

Lemma py_sum_nil : py_sum (F := R) [] = 0.
Proof. reflexivity. Qed.


Lemma py_sum_cobre (xs : list R) :
  Forall (fun x => 0 <= x) xs ->
  0 <= py_sum xs /\ forall x : R, In x xs -> x <= py_sum xs.
Proof.
  induction 1 as [|y xs Hy _ [IH0 IH]].
  - rewrite py_sum_nil. split; [lra | intros x []].
  - rewrite py_sum_cons. split; [lra|].
    intros x [<- | Hin]; [lra|]. specialize (IH x Hin). lra.
Qed.

Lemma resumo_Some (previsoes : list (Previsao R)) (r : Resumo R) :
  resumo previsoes = Some r ->
  (0 < length previsoes)%nat /\
  massa_total r = py_sum (map (@massa_kg R) previsoes) /\
  diametro_medio r
  = py_sum (map (@diametro_m R) previsoes) / INR (length previsoes).
Proof.
  destruct previsoes as [|p previsoes]; [discriminate|].
  unfold resumo. intros Hr. injection Hr as <-.
  cbn [massa_total diametro_medio]. split; [simpl; lia|].
  split; [reflexivity|]. rewrite INR_IZR_INZ. reflexivity.
Qed.

(** X4.  The summary box appears exactly when the detector reported at
    least one box; the mean is then a division by that positive count,
    never by zero. *)
Theorem resumo_sse_deteccoes (g : Globais R) (imagem : Imagem) :
  (resumo (snd (estimar_massa g imagem)) = None <-> modelo imagem = []) /\
  (forall r : Resumo R,
      resumo (snd (estimar_massa g imagem)) = Some r ->
      (0 < length (modelo imagem))%nat /\
      diametro_medio r * INR (length (modelo imagem))
      = py_sum (map (@diametro_m R) (snd (estimar_massa g imagem)))).
Proof.
  split.
  - rewrite estimar_massa_previsoes.
    destruct (modelo imagem) as [|det dets]; cbn [map resumo].
    + split; reflexivity.
    + split; discriminate.
  - intros r Hr. apply resumo_Some in Hr as [Hpos [_ Hmedio]].
    pose proof (previsoes_length g imagem) as Hlen.
    rewrite Hlen in Hpos, Hmedio. split; [exact Hpos|].
    rewrite Hmedio. field. apply not_0_INR. lia.
Qed.




(** X7.  With positive factor, length and density, the total mass is at
    least the mass of every single record, and never negative. *)
Theorem massa_total_cobre (g : Globais R) (imagem : Imagem) (r : Resumo R) :
  0 < FATOR_CONVERSAO g ->
  0 < COMPRIMENTO_TORA g ->
  0 < DENSIDADE_MADEIRA g ->
  resumo (snd (estimar_massa g imagem)) = Some r ->
  0 <= massa_total r /\
  (forall p : Previsao R,
      In p (snd (estimar_massa g imagem)) -> massa_kg p <= massa_total r).
Proof.
  intros Hfator Hcomp Hdens Hr.
  apply resumo_Some in Hr as [_ [Htotal _]].
  pose proof PI_RGT_0 as Hpi.
  destruct (py_sum_cobre (map (@massa_kg R) (snd (estimar_massa g imagem))))
    as [Hpos Hcobre].
  - apply Forall_map. rewrite estimar_massa_previsoes.
    apply Forall_map. apply Forall_forall. intros det _.
    rewrite massa_medicao. apply Rmult_le_pos.
    + apply Rmult_le_pos; [apply Rmult_le_pos|]; lra.
    + apply pow2_ge_0.
  - rewrite Htotal. split; [exact Hpos|].
    intros p Hin. apply Hcobre. apply in_map. exact Hin.
Qed.

End ResumoReais.

(** ** The mass as a function of width and factor, over the reals *)

Section Quadrado.

Context {Imagem : Type} {ext : Externo R Imagem}.

Local Open Scope R_scope.


End Quadrado.

(** ** The drawing calls, on the recording stand-in *)

Section Desenho.

Context {F : Type} {num : Numero F} {adi : Adicao F}.

Variable medida : string -> Z * Z.
Variable fmt : nat -> F -> string.

Local Abbreviation reg := (@registrador F medida fmt).

Lemma registro_laco (g : Globais F) (estado : Tela F * list (Previsao F))
    (det : Deteccao F) :
  fst (laco (ext := reg) g estado det)
  = {| caixas := caixas (fst estado);
       tracos := tracos (fst estado) ++ tracos_de medida fmt g det |}.
Proof.
  destruct estado as [tela previsoes].
  unfold laco, tracos_de, medicao, etiqueta.
  destruct (xyxy det) as [[[x1 y1] x2] y2].
  cbn [getTextSize formata registrador massa_kg diametro_m].
  destruct (medida _) as [largura_texto altura_texto].
  cbn [fst rectangle putText registrador]. unfold desenha.
  cbn [caixas tracos]. rewrite <- !app_assoc. reflexivity.
Qed.

Lemma registro_fold (g : Globais F) (dets : list (Deteccao F)) :
  forall estado : Tela F * list (Previsao F),
    fst (fold_left (laco (ext := reg) g) dets estado)
    = {| caixas := caixas (fst estado);
         tracos := tracos (fst estado)
                   ++ flat_map (tracos_de medida fmt g) dets |}.
Proof.
  induction dets as [|det dets IH]; intros estado.
  - cbn. rewrite app_nil_r. destruct (fst estado). reflexivity.
  - cbn [fold_left flat_map]. rewrite IH, registro_laco.
    cbn [caixas tracos]. now rewrite app_assoc.
Qed.

Lemma registro_estimar_massa (g : Globais F) (tela : Tela F) :
  fst (estimar_massa (ext := reg) g tela)
  = {| caixas := caixas tela;
       tracos := tracos tela
                 ++ flat_map (tracos_de medida fmt g) (caixas tela) |}.
Proof.
  unfold estimar_massa. rewrite registro_fold. reflexivity.
Qed.

Lemma tracos_de_length (g : Globais F) (dets : list (Deteccao F)) :
  length (flat_map (tracos_de medida fmt g) dets) = (3 * length dets)%nat.
Proof.
  induction dets as [|det dets IH]; [reflexivity|].
  cbn [flat_map length]. rewrite length_app, IH.
  unfold tracos_de. destruct (xyxy det) as [[[x1 y1] x2] y2].
  destruct (medida _) as [largura_texto altura_texto]. cbn [length]. lia.
Qed.

(** X9.  On the copy, [estimar_massa] makes three drawing calls per
    detection, in the detector's order and after whatever the image already
    shows: the green outline of the box, the filled green background of the
    label, and the black label text.  Nothing else is drawn, nothing is
    removed, and the boxes the detector reports for the image are as
    before. *)
Theorem desenhos_por_deteccao (g : Globais F) (tela : Tela F) :
  let imagem_anotada := fst (estimar_massa (ext := reg) g tela) in
  tracos imagem_anotada
  = tracos tela ++ flat_map (tracos_de medida fmt g) (caixas tela) /\
  length (tracos imagem_anotada)
  = (length (tracos tela) + 3 * length (caixas tela))%nat /\
  caixas imagem_anotada = caixas tela.
Proof.
  cbn zeta. rewrite registro_estimar_massa. cbn [tracos caixas].
  split; [reflexivity|]. split; [|reflexivity].
  now rewrite length_app, tracos_de_length.
Qed.

Lemma textos_app (ts1 ts2 : list Traco) :
  textos (ts1 ++ ts2) = textos ts1 ++ textos ts2.
Proof.
  induction ts1 as [|[pt1 pt2 cor e | texto org cor] ts1 IH]; cbn.
  - reflexivity.
  - exact IH.
  - now rewrite IH.
Qed.

(** The label of a record, from the three strings its block shows. *)
Lemma textos_flat_map (g : Globais F) (dets : list (Deteccao F)) :
  textos (flat_map (tracos_de medida fmt g) dets)
  = map (fun p => (fmt 1 (massa_kg p) ++ "kg | " ++ fmt 2 (diametro_m p)
                     ++ "m | " ++ fmt 2 (confianca p))%string)
        (map (medicao g) dets).
Proof.
  induction dets as [|det dets IH]; [reflexivity|].
  cbn [flat_map map]. rewrite textos_app, IH. f_equal.
  rewrite confianca_medicao.
  unfold tracos_de. destruct (xyxy det) as [[[x1 y1] x2] y2] eqn:Hbox.
  destruct (medida _) as [largura_texto altura_texto]. reflexivity.
Qed.

Lemma blocos_etiquetas (previsoes : list (Previsao F)) :
  forall start : Z,
    map (fun b => (massa_txt b ++ "kg | " ++ diametro_txt b ++ "m | "
                     ++ confianca_txt b)%string)
        (map (fun ip => bloco (ext := reg) (fst ip) (snd ip))
             (enumerate start previsoes))
    = map (fun p => (fmt 1 (massa_kg p) ++ "kg | " ++ fmt 2 (diametro_m p)
                       ++ "m | " ++ fmt 2 (confianca p))%string)
          previsoes.
Proof.
  induction previsoes as [|p previsoes IH]; intros start; [reflexivity|].
  cbn [enumerate map]. rewrite IH. reflexivity.
Qed.

(** X10.  The label written on the image for a detection is made of the
    very strings its block of the results column shows: the texts drawn, in
    order, are "<mass>kg | <diameter>m | <confidence>" of block 1, block 2,
    and so on. *)
Theorem etiquetas_conferem (g : Globais F) (tela : Tela F) :
  textos (tracos (fst (estimar_massa (ext := reg) g tela)))
  = textos (tracos tela)
    ++ map (fun b => (massa_txt b ++ "kg | " ++ diametro_txt b ++ "m | "
                        ++ confianca_txt b)%string)
           (blocos (coluna_resultados (ext := reg)
                      (snd (estimar_massa (ext := reg) g tela)))).
Proof.
  rewrite registro_estimar_massa. cbn [tracos].
  rewrite textos_app, textos_flat_map.
  unfold coluna_resultados. cbn [blocos].
  rewrite blocos_etiquetas, estimar_massa_previsoes. reflexivity.
Qed.

(** X11.  The label is anchored to the top-left corner of its box: the
    filled background spans from [(x1, y1 - h - 10)] to [(x1 + w, y1)] for
    the measured text size [(w, h)], its bottom edge is the top edge of the
    box, and the text starts at [(x1, y1 - 5)], inside the background when
    the height is not negative.  Nothing is clamped: for a box less than
    [h + 10] pixels from the top of the image the background starts at a
    negative row. *)
Theorem etiqueta_ancorada (g : Globais F) (tela : Tela F)
    (det : Deteccao F) (x1 y1 x2 y2 : Z) :
  In det (caixas tela) ->
  xyxy det = (x1, y1, x2, y2) ->
  let desenhos := tracos (fst (estimar_massa (ext := reg) g tela)) in
  exists (texto : string) (w h : Z),
    medida texto = (w, h) /\
    In (Retangulo (x1, y1) (x2, y2) (0, 255, 0)%Z 2%Z) desenhos /\
    In (Retangulo (x1, y1 - h - 10)%Z (x1 + w, y1)%Z (0, 255, 0)%Z (-1)%Z)
       desenhos /\
    In (Texto texto (x1, y1 - 5)%Z (0, 0, 0)%Z) desenhos /\
    ((0 <= h)%Z -> (y1 - h - 10 <= y1 - 5 <= y1)%Z) /\
    ((y1 < h + 10)%Z -> (y1 - h - 10 < 0)%Z).
Proof.
  intros Hin Hbox desenhos. subst desenhos.
  rewrite registro_estimar_massa. cbn [tracos].
  assert (Hdet : forall tr : Traco,
             In tr (tracos_de medida fmt g det) ->
             In tr (tracos tela
                    ++ flat_map (tracos_de medida fmt g) (caixas tela))).
  { intros tr Htr. apply in_or_app. right.
    apply in_flat_map. exists det. split; assumption. }
  unfold tracos_de in Hdet. rewrite Hbox in Hdet.
  destruct (medida _) as [w h] eqn:Hmedida.
  eexists. exists w, h. split; [exact Hmedida|].
  split; [apply Hdet; left; reflexivity|].
  split; [apply Hdet; right; left; reflexivity|].
  split; [apply Hdet; right; right; left; reflexivity|].
  split; lia.
Qed.

End Desenho.

(** ** The page of a run *)

Section Pagina.

Context {F Imagem : Type} {num : Numero F} {adi : Adicao F}
        {ext : Externo F Imagem}.

(** X12.  What a run shows under the results heading is fixed by the
    upload alone: two runs on the same upload show the same annotated
    image, the same blocks and the same summary, whatever wood and custom
    density the sidebar holds. *)
Theorem pagina_ignora_selecao (w w' : Widgets Imagem) :
  arquivo w = arquivo w' -> pagina w = pagina w'.
Proof.
  intros Hmesmo. unfold pagina.
  rewrite (script_ignora_selecao w w' Hmesmo). reflexivity.
Qed.

End Pagina.

(** *** The theorems of this part, applied to the boxes of the stand-in *)

Lemma previsao_leva_caixa_e_confianca_witness :
  bbox (medicao (F := R) constantes tora) = [100; 100; 200; 150]%Z /\
  confianca (medicao (F := R) constantes tora) = conf tora.
Proof.
  exact (previsao_leva_caixa_e_confianca constantes (foto [tora]) tora _
           100 100 200 150 eq_refl (emite_unica constantes tora)).
Defined.

Lemma so_a_largura_conta_witness :
  diametro_m (medicao (F := R) constantes tora)
  = diametro_m (medicao constantes (caixa 300 40 400 90)) /\
  massa_kg (medicao (F := R) constantes tora)
  = massa_kg (medicao constantes (caixa 300 40 400 90)).
Proof.
  exact (so_a_largura_conta constantes (foto [tora])
           (foto [caixa 300 40 400 90]) tora (caixa 300 40 400 90) _ _
           eq_refl (emite_unica constantes tora)
           (emite_unica constantes (caixa 300 40 400 90))).
Defined.



Lemma massa_total_cobre_witness :
  let previsoes :=
    snd (estimar_massa (F := R) constantes (foto [tora; larga])) in
  0 <= py_sum (map (@massa_kg R) previsoes) /\
  (forall p : Previsao R,
      In p previsoes -> massa_kg p <= py_sum (map (@massa_kg R) previsoes)).
Proof.
  destruct constantes_positivas as [Hfator [Hcomp Hdens]].
  exact (massa_total_cobre constantes (foto [tora; larga]) _
           Hfator Hcomp Hdens eq_refl).
Defined.

Lemma etiqueta_ancorada_witness :
  let medida := fun s : string => (11 * Z.of_nat (String.length s), 13)%Z in
  let fmt := fun (_ : nat) (_ : R) => "#"%string in
  let desenhos :=
    tracos (fst (estimar_massa (ext := registrador medida fmt)
                   constantes (foto [caixa 100 20 200 150]))) in
  exists (texto : string) (w h : Z),
    medida texto = (w, h) /\
    In (Retangulo (100, 20)%Z (200, 150)%Z (0, 255, 0)%Z 2%Z) desenhos /\
    In (Retangulo (100, 20 - h - 10)%Z (100 + w, 20)%Z (0, 255, 0)%Z (-1)%Z)
       desenhos /\
    In (Texto texto (100, 20 - 5)%Z (0, 0, 0)%Z) desenhos /\
    ((0 <= h)%Z -> (20 - h - 10 <= 20 - 5 <= 20)%Z) /\
    ((20 < h + 10)%Z -> (20 - h - 10 < 0)%Z).
Proof.
  exact (etiqueta_ancorada
           (fun s : string => (11 * Z.of_nat (String.length s), 13)%Z)
           (fun (_ : nat) (_ : R) => "#"%string)
           constantes (foto [caixa 100 20 200 150]) (caixa 100 20 200 150)
           100 20 200 150 (or_introl eq_refl) eq_refl).
Defined.

Lemma pagina_ignora_selecao_witness :
  pagina (F := R)
    {| arquivo := Some (foto [tora]); tipo_madeira := Pinho;
       densidade_personalizada := 600 |}
  = pagina
      {| arquivo := Some (foto [tora]); tipo_madeira := Personalizado;
         densidade_personalizada := 850 |}.
Proof.
  exact (pagina_ignora_selecao
           {| arquivo := Some (foto [tora]); tipo_madeira := Pinho;
              densidade_personalizada := 600 |}
           {| arquivo := Some (foto [tora]); tipo_madeira := Personalizado;
              densidade_personalizada := 850 |} eq_refl).
Defined.

Lemma densidade_final_faixa_witness :
  100 <= DENSIDADE_MADEIRA
           (snd (script (F := R)
                   {| arquivo := Some (foto [tora]);
                      tipo_madeira := Personalizado;
                      densidade_personalizada := 850 |})) <= 1000.
Proof.
  assert (Hok : number_input_ok
                  {| arquivo := Some (foto (F := R) [tora]);
                     tipo_madeira := Personalizado;
                     densidade_personalizada := 850 |}).
  { unfold number_input_ok. cbn. lia. }
  exact (densidade_final_faixa _ Hok).
Defined.
